(** * PERDQN: the training step and loss of DQN with prioritized replay

    A shallow embedding of [pl_bolts/models/rl/per_dqn_model.py].

    Tensors of rank one are lists, the [batch x actions] output of a network
    is a list of rows.  The element type of tensors and of the Python floats
    held on [self] is a parameter ([Scalar]): the code is the same whatever
    the dtype.  Two instances are given, exact rationals ([Q]) and IEEE
    binary64 ([spec_float] at precision 53), the second so that overflow,
    infinities and NaN can be evaluated.

    The collaborators that live outside this file of the repository (the
    networks, the agent and experience source, the replay buffer) are
    interfaces, given as type classes. *)

From Stdlib Require Import List ZArith QArith Bool Lia Lqa.
From Stdlib Require Import Floats.SpecFloat.
Import ListNotations.

Set Implicit Arguments.
Local Open Scope Z_scope.

(** ** Errors

    A Python exception aborts the step: [None]. *)

Definition bind {A B : Type} (c : option A) (k : A -> option B) : option B :=
  match c with
  | Some a => k a
  | None => None
  end.

Notation "x <- c ;; k" := (bind c (fun x => k))
  (at level 61, c at next level, right associativity).
Notation "' p <- c ;; k" := (bind c (fun x => let 'p := x in k))
  (at level 61, p pattern, c at next level, right associativity).

(** ** Scalars *)

Class Scalar (F : Type) := {
  f_zero : F;                 (* the literals 0 and 0.0 *)
  f_of_Z : Z -> F;            (* an int promoted to the float type *)
  f_eps : F;                  (* the literal 1e-5 *)
  f_add : F -> F -> F;
  f_sub : F -> F -> F;
  f_mul : F -> F -> F;
  f_div : F -> F -> F;
  f_max : F -> F -> F         (* the binary step of a max reduction *)
}.

(** Exact rationals. *)
#[export] Instance Q_scalar : Scalar Q := {
  f_zero := 0%Q;
  f_of_Z := inject_Z;
  f_eps := (1 # 100000)%Q;
  f_add := Qplus;
  f_sub := Qminus;
  f_mul := Qmult;
  f_div := Qdiv;
  f_max := fun x y => if Qle_bool x y then y else x
}.

(** IEEE binary64. *)
Module B64.
Definition prec : Z := 53.
Definition emax : Z := 1024.

Definition of_Z (z : Z) : spec_float := binary_normalize prec emax z 0 false.

(* 1e-5 = 0x1.4f8b588e368f1p-17 *)
Definition eps : spec_float := S754_finite false 5902958103587057 (-69).

Definition is_nan (x : spec_float) : bool :=
  match x with S754_nan => true | _ => false end.

Definition is_finite (x : spec_float) : bool :=
  match x with S754_zero _ | S754_finite _ _ _ => true | _ => false end.

(* a max reduction propagates NaN *)
Definition max (x y : spec_float) : spec_float :=
  if is_nan x then x else if is_nan y then y
  else if SFltb x y then y else x.
End B64.

#[export] Instance B64_scalar : Scalar spec_float := {
  f_zero := S754_zero false;
  f_of_Z := B64.of_Z;
  f_eps := B64.eps;
  f_add := SFadd B64.prec B64.emax;
  f_sub := SFsub B64.prec B64.emax;
  f_mul := SFmul B64.prec B64.emax;
  f_div := SFdiv B64.prec B64.emax;
  f_max := B64.max
}.

(** ** Tensor operations *)

Section Tensor.
Context {F : Type} `{Scalar F}.

Fixpoint map2 {A B C : Type} (f : A -> B -> C) (xs : list A) (ys : list B)
  : list C :=
  match xs, ys with
  | x :: xs', y :: ys' => f x y :: map2 f xs' ys'
  | _, _ => []
  end.

(** A binary elementwise operation on two rank-one tensors: a tensor of
    size one is expanded to the size of the other, sizes that differ
    otherwise raise. *)
Definition broadcast2 {A : Type} (f : A -> A -> A) (xs ys : list A)
  : option (list A) :=
  match xs, ys with
  | [x], _ => Some (map (f x) ys)
  | _, [y] => Some (map (fun x => f x y) xs)
  | _, _ =>
      if Nat.eqb (length xs) (length ys) then Some (map2 f xs ys) else None
  end.

(** [input.gather(1, index)] with [index] of shape [m, 1]: row [i] of the
    result is [input[i][index[i]]].  The index may have fewer rows than
    the input, never more; an index outside the row raises. *)
Fixpoint gather (rows : list (list F)) (index : list Z) : option (list F) :=
  match index with
  | [] => Some []
  | a :: index' =>
      match rows with
      | [] => None
      | r :: rows' =>
          if a <? 0 then None
          else
            v <- nth_error r (Z.to_nat a) ;;
            vs <- gather rows' index' ;;
            Some (v :: vs)
      end
  end.

(** [max] of one row; an empty row has no maximum and raises. *)
Definition row_max (r : list F) : option F :=
  match r with
  | [] => None
  | x :: r' => Some (fold_left f_max r' x)
  end.

(** [t.max(1)[0]] *)
Fixpoint max_dim1 (rows : list (list F)) : option (list F) :=
  match rows with
  | [] => Some []
  | r :: rows' =>
      m <- row_max r ;;
      ms <- max_dim1 rows' ;;
      Some (m :: ms)
  end.

(** [t[mask] = 0.0] with a boolean mask, whose shape must be that of [t]. *)
Definition masked_fill_zero (t : list F) (mask : list bool)
  : option (list F) :=
  if Nat.eqb (length mask) (length t)
  then Some (map2 (fun (d : bool) v => if d then f_zero else v) mask t)
  else None.

(** Python's [sum], from the int 0, left to right. *)
Definition sum (l : list F) : F := fold_left f_add l f_zero.

(** [t.mean()] *)
Definition mean (t : list F) : F :=
  f_div (sum t) (f_of_Z (Z.of_nat (length t))).

(** [l[-n:]] *)
Definition last_n {A : Type} (n : nat) (l : list A) : list A :=
  skipn (length l - n) l.
End Tensor.

(** ** Collaborators *)

(** [self.net] and [self.target_net]: a parameter set and the forward pass
    on one observation, giving one value per action. *)
Class Network (Params Obs F : Type) := {
  forward : Params -> Obs -> list F
}.

(** [self.agent] and [self.source] (which holds the same agent and the
    environment), as one piece of state. *)
Class Source (World Params Exp F : Type) := {
  update_epsilon : Z -> World -> World;
  epsilon : World -> F;
  source_step : Params -> World -> World * (Exp * F * bool)
}.

(** [self.buffer].  [update_priorities] may refuse its arguments. *)
Class ReplayBuffer (Buffer Exp F : Type) := {
  append : Buffer -> Exp -> Buffer;
  update_priorities : Buffer -> list Z -> list F -> option Buffer
}.

(** ** The model *)

Section PERDQN.
Context {F Params Obs Exp World Buffer : Type}.
Context `{Scalar F} `{Network Params Obs F} `{Source World Params Exp F}
        `{ReplayBuffer Buffer Exp F}.

(** The five tensors of a minibatch. *)
Record Batch := {
  states : list Obs;
  actions : list Z;
  rewards : list F;
  dones : list bool;
  next_states : list Obs
}.

(** The fields of [self] that [training_step] and [loss] read or write.
    [global_step] and the two trainer flags belong to the trainer. *)
Record PERDQN := {
  net : Params;
  target_net : Params;
  gamma : F;
  sync_rate : Z;
  global_step : Z;
  use_dp : bool;
  use_ddp2 : bool;
  world : World;
  buffer : Buffer;
  episode_reward : F;
  episode_steps : Z;
  total_reward : F;
  reward_list : list F;
  avg_reward : F;
  episode_count : Z;
  total_episode_steps : Z
}.

(** The scalar loss, as it is or with a leading dimension of size one. *)
Inductive LossTensor :=
| Scalar0 (v : F)
| Unsqueezed (v : F).

Definition loss_value (l : LossTensor) : F :=
  match l with Scalar0 v | Unsqueezed v => v end.

Record StepOutput := {
  out_loss : LossTensor;
  log_total_reward : F;
  log_avg_reward : F;
  log_train_loss : LossTensor;
  log_episode_steps : Z;
  bar_steps : Z;
  bar_avg_reward : F;
  bar_total_reward : F;
  bar_episodes : Z;
  bar_episode_steps : Z;
  bar_epsilon : F
}.

(** *** [loss] *)

(** [self.net(states).gather(1, actions.unsqueeze(-1)).squeeze(-1)] *)
Definition state_action_vals (self : PERDQN) (batch : Batch)
  : option (list F) :=
  gather (map (forward (net self)) (states batch)) (actions batch).

(** [next_s_vals] after the masked assignment. *)
Definition next_s_vals (self : PERDQN) (batch : Batch) : option (list F) :=
  vals <- max_dim1 (map (forward (target_net self)) (next_states batch)) ;;
  masked_fill_zero vals (dones batch).

(** [exp_sa_vals = next_s_vals.detach() * self.gamma + rewards] *)
Definition exp_sa_vals (self : PERDQN) (batch : Batch) : option (list F) :=
  vals <- next_s_vals self batch ;;
  broadcast2 f_add (map (fun v => f_mul v (gamma self)) vals)
    (rewards batch).

(** [(loss, priorities)].  The square [d ** 2] is the product [d * d]. *)
Definition loss (self : PERDQN) (batch : Batch) (batch_weights : list F)
  : option (F * list F) :=
  q <- state_action_vals self batch ;;
  target <- exp_sa_vals self batch ;;
  diff <- broadcast2 f_sub q target ;;
  let loss := map (fun d => f_mul d d) diff in
  losses_v <- broadcast2 f_mul batch_weights loss ;;
  Some (mean losses_v, map (fun v => f_add v f_eps) losses_v).

(** *** [training_step] *)

(** The body of [if done:]. *)
Definition finish_episode (self : PERDQN) : PERDQN :=
  let total := episode_reward self in
  let history := reward_list self ++ [total] in
  {| net := net self;
     target_net := target_net self;
     gamma := gamma self;
     sync_rate := sync_rate self;
     global_step := global_step self;
     use_dp := use_dp self;
     use_ddp2 := use_ddp2 self;
     world := world self;
     buffer := buffer self;
     episode_reward := f_zero;
     episode_steps := 0;
     total_reward := total;
     reward_list := history;
     avg_reward := f_div (sum (last_n 100 history)) (f_of_Z 100);
     episode_count := episode_count self + 1;
     total_episode_steps := episode_steps self |}.

(** The state after the environment step, the append and the two
    accumulator updates. *)
Definition after_env_step (self : PERDQN) (w : World) (b : Buffer)
    (reward : F) : PERDQN :=
  {| net := net self;
     target_net := target_net self;
     gamma := gamma self;
     sync_rate := sync_rate self;
     global_step := global_step self;
     use_dp := use_dp self;
     use_ddp2 := use_ddp2 self;
     world := w;
     buffer := b;
     episode_reward := f_add (episode_reward self) reward;
     episode_steps := episode_steps self + 1;
     total_reward := total_reward self;
     reward_list := reward_list self;
     avg_reward := avg_reward self;
     episode_count := episode_count self;
     total_episode_steps := total_episode_steps self |}.

Definition set_buffer (self : PERDQN) (b : Buffer) : PERDQN :=
  {| net := net self;
     target_net := target_net self;
     gamma := gamma self;
     sync_rate := sync_rate self;
     global_step := global_step self;
     use_dp := use_dp self;
     use_ddp2 := use_ddp2 self;
     world := world self;
     buffer := b;
     episode_reward := episode_reward self;
     episode_steps := episode_steps self;
     total_reward := total_reward self;
     reward_list := reward_list self;
     avg_reward := avg_reward self;
     episode_count := episode_count self;
     total_episode_steps := total_episode_steps self |}.

(** [self.target_net.load_state_dict(self.net.state_dict())] *)
Definition sync_target (self : PERDQN) : PERDQN :=
  {| net := net self;
     target_net := net self;
     gamma := gamma self;
     sync_rate := sync_rate self;
     global_step := global_step self;
     use_dp := use_dp self;
     use_ddp2 := use_ddp2 self;
     world := world self;
     buffer := buffer self;
     episode_reward := episode_reward self;
     episode_steps := episode_steps self;
     total_reward := total_reward self;
     reward_list := reward_list self;
     avg_reward := avg_reward self;
     episode_count := episode_count self;
     total_episode_steps := total_episode_steps self |}.

(** [a % b] on Python ints; a zero divisor raises. *)
Definition py_mod (a b : Z) : option Z :=
  if b =? 0 then None else Some (a mod b).

(** [training_step(batch, _)], in the order of the source: the agent's
    epsilon, one environment step whose experience is appended to the
    buffer, the two accumulators, the loss of the minibatch, the priorities
    written back, the reshaping of the loss, the end of the episode, the
    target network, the result.  The indices are used as they come
    ([indices.cpu().numpy()] changes their container only). *)
Definition training_step (self : PERDQN)
    (batch : Batch * list Z * list F) : option (PERDQN * StepOutput) :=
  let '(samples, indices, weights) := batch in
  let w := update_epsilon (global_step self) (world self) in
  let '(w, (exp, reward, done)) := source_step (net self) w in
  let self1 :=
    after_env_step self w (append (buffer self) exp) reward in
  '(loss, batch_weights) <- loss self1 samples weights ;;
  b <- update_priorities (buffer self1) indices batch_weights ;;
  let self2 := set_buffer self1 b in
  let loss :=
    if use_dp self2 || use_ddp2 self2 then Unsqueezed loss
    else Scalar0 loss in
  let self3 := if done : bool then finish_episode self2 else self2 in
  r <- py_mod (global_step self3) (sync_rate self3) ;;
  let self4 := if r =? 0 then sync_target self3 else self3 in
  Some (self4,
        {| out_loss := loss;
           log_total_reward := total_reward self4;
           log_avg_reward := avg_reward self4;
           log_train_loss := loss;
           log_episode_steps := total_episode_steps self4;
           bar_steps := global_step self4;
           bar_avg_reward := avg_reward self4;
           bar_total_reward := total_reward self4;
           bar_episodes := episode_count self4;
           bar_episode_steps := episode_steps self4;
           bar_epsilon := epsilon (world self4) |}).
End PERDQN.

(** ** The loss in the words of the specification

    Sample by sample, to be compared with the tensor code above. *)

Section LossSpec.
Context {F : Type} `{Scalar F}.

(** [weight_i * (q_pred_i - q_target_i)^2] *)
Definition weighted_sq_err (ws q t : list F) (i : nat) : F :=
  let d := f_sub (nth i q f_zero) (nth i t f_zero) in
  f_mul (nth i ws f_zero) (f_mul d d).

(** The mean over the [n] samples. *)
Definition spec_loss (n : nat) (ws q t : list F) : F :=
  f_div (sum (map (weighted_sq_err ws q t) (seq 0 n)))
        (f_of_Z (Z.of_nat n)).

(** The weighted loss of each sample, plus 1e-5. *)
Definition spec_priorities (n : nat) (ws q t : list F) : list F :=
  map (fun i => f_add (weighted_sq_err ws q t i) f_eps) (seq 0 n).
End LossSpec.

(** ** Preconditions *)

Section Shapes.
Context {F Params Obs Exp World Buffer : Type}.
Context `{Scalar F} `{Network Params Obs F} `{Source World Params Exp F}
        `{ReplayBuffer Buffer Exp F}.

(** A minibatch of [n] samples: every tensor has [n] entries. *)
Definition well_shaped (n : nat) (batch : @Batch F Obs) (weights : list F)
  : Prop :=
  length (states batch) = n /\ length (actions batch) = n /\
  length (rewards batch) = n /\ length (dones batch) = n /\
  length (next_states batch) = n /\ length weights = n.

(** Every action indexes the row the online network gives its state. *)
Definition actions_in_range (self : @PERDQN F Params World Buffer)
    (batch : @Batch F Obs) : Prop :=
  Forall2 (fun s a => 0 <= a < Z.of_nat (length (forward (net self) s)))
          (states batch) (actions batch).

(** The target network gives every next state at least one action value. *)
Definition target_rows_nonempty (self : @PERDQN F Params World Buffer)
    (batch : @Batch F Obs) : Prop :=
  Forall (fun s => forward (target_net self) s <> []) (next_states batch).

(** The prediction and the target of sample [i], in the words of the
    specification: the online network's value of the action taken, and the
    largest value the target network gives the next state, forced to zero
    in a terminal row, times [gamma], plus the reward. *)
Definition q_pred_at (self : @PERDQN F Params World Buffer)
    (batch : @Batch F Obs) (i : nat) : option F :=
  s <- nth_error (states batch) i ;;
  a <- nth_error (actions batch) i ;;
  nth_error (forward (net self) s) (Z.to_nat a).

Definition q_target_at (self : @PERDQN F Params World Buffer)
    (batch : @Batch F Obs) (i : nat) : option F :=
  s <- nth_error (next_states batch) i ;;
  d <- nth_error (dones batch) i ;;
  r <- nth_error (rewards batch) i ;;
  q_next <- row_max (forward (target_net self) s) ;;
  Some (f_add (f_mul (if d : bool then f_zero else q_next) (gamma self)) r).

(** What [self.source.step()] returns in state [self], after the agent's
    epsilon was updated. *)
Definition env_transition (self : @PERDQN F Params World Buffer)
  : World * (Exp * F * bool) :=
  source_step (net self) (update_epsilon (global_step self) (world self)).

Definition step_exp (self : @PERDQN F Params World Buffer) : Exp :=
  fst (fst (snd (env_transition self))).
Definition step_reward (self : @PERDQN F Params World Buffer) : F :=
  snd (fst (snd (env_transition self))).
Definition step_done (self : @PERDQN F Params World Buffer) : bool :=
  snd (snd (env_transition self)).

(** The state that a step which completes leaves behind, [b] being the
    buffer after the priority update. *)
Definition step_state (self : @PERDQN F Params World Buffer) (b : Buffer)
  : @PERDQN F Params World Buffer :=
  let self2 :=
    after_env_step self (fst (env_transition self)) b (step_reward self) in
  let self3 := if step_done self then finish_episode self2 else self2 in
  if global_step self mod sync_rate self =? 0 then sync_target self3
  else self3.
End Shapes.

(** ** A priority store *)

(** Modelled from the spec: the PriorityStore behind [self.buffer] (the
    class [PERBuffer] of [pl_bolts/models/rl/common/memory.py] is not among
    the sources).  A store of fixed capacity whose slots are addressed by
    index; a full store overwrites its least recently inserted slot, found
    by a cyclic cursor.  [update_priorities] sets each priority to the value
    given plus the store's floor, skips an index that names no slot, and
    refuses index and value sequences of different lengths.  A transition
    appended by the training step gets the largest priority in the store,
    or 1 in an empty store. *)
Module PriorityStore.
Section Store.
Context {F E : Type} `{Scalar F}.

Record t := {
  capacity : nat;
  slots : list (E * F);
  cursor : nat;
  epsilon_floor : F
}.

Definition priorities (s : t) : list F := map snd (slots s).

Fixpoint set_nth {A : Type} (i : nat) (x : A) (l : list A) : list A :=
  match l, i with
  | [], _ => []
  | _ :: l', O => x :: l'
  | y :: l', S i' => y :: set_nth i' x l'
  end.

Definition insert (s : t) (tr : E) (p : F) : t :=
  if Nat.ltb (length (slots s)) (capacity s)
  then {| capacity := capacity s;
          slots := slots s ++ [(tr, p)];
          cursor := cursor s;
          epsilon_floor := epsilon_floor s |}
  else {| capacity := capacity s;
          slots := set_nth (cursor s) (tr, p) (slots s);
          cursor := Nat.modulo (S (cursor s)) (capacity s);
          epsilon_floor := epsilon_floor s |}.

Definition fresh_priority (s : t) : F :=
  match priorities s with
  | [] => f_of_Z 1
  | p :: ps => fold_left f_max ps p
  end.

Definition set_priority (s : t) (i : Z) (v : F) : t :=
  if i <? 0 then s
  else
    match nth_error (slots s) (Z.to_nat i) with
    | None => s
    | Some (tr, _) =>
        {| capacity := capacity s;
           slots := set_nth (Z.to_nat i) (tr, f_add v (epsilon_floor s))
                      (slots s);
           cursor := cursor s;
           epsilon_floor := epsilon_floor s |}
    end.

Fixpoint set_priorities (s : t) (indices : list Z) (values : list F) : t :=
  match indices, values with
  | i :: indices', v :: values' =>
      set_priorities (set_priority s i v) indices' values'
  | _, _ => s
  end.

Definition update (s : t) (indices : list Z) (values : list F) : option t :=
  if Nat.eqb (length indices) (length values)
  then Some (set_priorities s indices values)
  else None.
End Store.
End PriorityStore.

#[export] Instance PriorityStore_buffer {F E : Type} `{Scalar F}
  : ReplayBuffer (@PriorityStore.t F E) E F := {
  append := fun s e => PriorityStore.insert s e (PriorityStore.fresh_priority s);
  update_priorities := PriorityStore.update
}.


(** ** Small collaborators to run the model on *)

Module Toy.
Section Toy.
Context {F : Type} `{Scalar F}.

(** A network of two actions whose values are [p + s] and [p - s]. *)
Definition two_actions : Network Z Z F := {|
  forward := fun p s => [f_of_Z (p + s); f_of_Z (p - s)]
|}.

(** An environment that counts its steps, pays [pay] at each one and ends
    an episode every [len] steps; the agent remembers the step it was
    last given. *)
Record world := { clock : Z; last_seen : Z; pay : F; len : Z }.

Definition counting : Source world Z Z F := {|
  update_epsilon := fun step w =>
    {| clock := clock w; last_seen := step; pay := pay w; len := len w |};
  epsilon := fun w => f_of_Z (last_seen w);
  source_step := fun _ w =>
    ({| clock := clock w + 1; last_seen := last_seen w;
        pay := pay w; len := len w |},
     (clock w, pay w, (clock w + 1) mod len w =? 0))
|}.
End Toy.
End Toy.

#[export] Existing Instance Toy.two_actions.
#[export] Existing Instance Toy.counting.

(** Concrete runs.  [start] is a learner at global step [step] whose
    environment pays [pay] and ends an episode every [len] steps; its store
    of capacity 3 holds two transitions of priority 1. *)
Module Run.
Section Run.
Context {F : Type} `{Scalar F}.

Definition store : @PriorityStore.t F Z := {|
  PriorityStore.capacity := 3;
  PriorityStore.slots := [(10, f_of_Z 1); (11, f_of_Z 1)];
  PriorityStore.cursor := O;
  PriorityStore.epsilon_floor := f_zero
|}.

Definition start (online : Z) (step : Z) (pay : F) (len : Z)
  : @PERDQN F Z (@Toy.world F) (@PriorityStore.t F Z) := {|
  net := online;
  target_net := 2;
  gamma := f_of_Z 1;
  sync_rate := 4;
  global_step := step;
  use_dp := false;
  use_ddp2 := false;
  world := {| Toy.clock := 0; Toy.last_seen := 0;
              Toy.pay := pay; Toy.len := len |};
  buffer := store;
  episode_reward := f_zero;
  episode_steps := 0;
  total_reward := f_zero;
  reward_list := [];
  avg_reward := f_zero;
  episode_count := 0;
  total_episode_steps := 0
|}.

(** Two samples, the first of them terminal. *)
Definition samples : @Batch F Z := {|
  states := [1; 2];
  actions := [0; 1];
  rewards := [f_of_Z 1; f_zero];
  dones := [true; false];
  next_states := [2; 3]
|}.

Definition indices : list Z := [0; 1].
Definition weights : list F := [f_of_Z 1; f_of_Z 2].
End Run.
End Run.

(** Inputs at the edges: a learner whose [sync_rate] is zero, a minibatch
    with an action that no network row has, one whose [dones] is too short,
    an empty one, and a network that gives no action values. *)
Module Edge.
Section Edge.
Context {F : Type} `{Scalar F}.

Definition no_sync : @PERDQN F Z (@Toy.world F) (@PriorityStore.t F Z) :=
  let s := Run.start 1 0 (f_of_Z 5) 1 in
  {| net := net s;
     target_net := target_net s;
     gamma := gamma s;
     sync_rate := 0;
     global_step := global_step s;
     use_dp := use_dp s;
     use_ddp2 := use_ddp2 s;
     world := world s;
     buffer := buffer s;
     episode_reward := episode_reward s;
     episode_steps := episode_steps s;
     total_reward := total_reward s;
     reward_list := reward_list s;
     avg_reward := avg_reward s;
     episode_count := episode_count s;
     total_episode_steps := total_episode_steps s |}.

Definition bad_action : @Batch F Z := {|
  states := [1; 2];
  actions := [0; 2];
  rewards := [f_of_Z 1; f_zero];
  dones := [true; false];
  next_states := [2; 3]
|}.

Definition short_mask : @Batch F Z := {|
  states := [1; 2];
  actions := [0; 1];
  rewards := [f_of_Z 1; f_zero];
  dones := [true];
  next_states := [2; 3]
|}.

Definition empty : @Batch F Z := {|
  states := [];
  actions := [];
  rewards := [];
  dones := [];
  next_states := []
|}.

Definition silent : Network Z Z F := {| forward := fun _ _ => [] |}.
End Edge.
End Edge.

(** The five tensors of a minibatch have [n] entries each, whatever the
    weights are. *)
Definition batch_of_size {F Obs : Type} (n : nat) (batch : @Batch F Obs)
  : Prop :=
  length (states batch) = n /\ length (actions batch) = n /\
  length (rewards batch) = n /\ length (dones batch) = n /\
  length (next_states batch) = n.

(** * Properties *)

(** ** Tensors *)

Section TensorFacts.
Context {F : Type} `{Scalar F}.

Lemma map2_length {A B C : Type} (f : A -> B -> C) xs ys :
  length xs = length ys -> length (map2 f xs ys) = length xs.
Proof.
  revert ys; induction xs as [|x xs IH]; intros [|y ys] E; simpl in *;
    try discriminate; auto.
Qed.

Lemma map2_nth {A B C : Type} (f : A -> B -> C) xs ys i da db dc :
  (i < length xs)%nat -> length xs = length ys ->
  nth i (map2 f xs ys) dc = f (nth i xs da) (nth i ys db).
Proof.
  revert ys i; induction xs as [|x xs IH]; intros [|y ys] [|i] L E;
    simpl in *; try discriminate; try lia; auto.
  apply IH; lia.
Qed.

Lemma broadcast2_same_length {A : Type} (f : A -> A -> A) xs ys :
  length xs = length ys -> broadcast2 f xs ys = Some (map2 f xs ys).
Proof.
  intros E. unfold broadcast2.
  destruct xs as [|x [|x' xs]], ys as [|y [|y' ys]]; simpl in *;
    try discriminate; auto.
  injection E as E. rewrite E, Nat.eqb_refl. reflexivity.
Qed.

(** A list is the table of its entries. *)
Lemma list_eq_table {A : Type} (l : list A) n d (g : nat -> A) :
  length l = n -> (forall i, (i < n)%nat -> nth i l d = g i) ->
  l = map g (seq 0 n).
Proof.
  intros L E. apply nth_ext with (d := d) (d' := g O).
  - now rewrite length_map, length_seq.
  - intros i Hi. rewrite L in Hi. rewrite E by assumption.
    rewrite (map_nth g (seq 0 n) O i), seq_nth by assumption.
    reflexivity.
Qed.

Lemma gather_defined rows index :
  Forall2 (fun (r : list F) a => 0 <= a < Z.of_nat (length r)) rows index ->
  exists q, gather rows index = Some q /\ length q = length index.
Proof.
  induction 1 as [|r a rows index [Ha Hb] _ [q [Eq Lq]]]; simpl.
  - now exists [].
  - destruct (Z.ltb_spec a 0) as [|_]; [lia|].
    destruct (nth_error r (Z.to_nat a)) as [v|] eqn:Ev.
    + exists (v :: q). rewrite Eq. simpl. now rewrite Lq.
    + apply nth_error_None in Ev. lia.
Qed.

Lemma max_dim1_defined (rows : list (list F)) :
  Forall (fun r => r <> []) rows ->
  exists m, max_dim1 rows = Some m /\ length m = length rows.
Proof.
  induction 1 as [|r rows Hr _ [m [Em Lm]]]; simpl.
  - now exists [].
  - destruct r as [|x r]; [congruence|]. simpl.
    exists (fold_left f_max r x :: m). rewrite Em. simpl. now rewrite Lm.
Qed.

Lemma map2_nth_error {A B C : Type} (f : A -> B -> C) xs ys i x y :
  nth_error xs i = Some x -> nth_error ys i = Some y ->
  nth_error (map2 f xs ys) i = Some (f x y).
Proof.
  revert ys i; induction xs as [|x' xs IH]; intros [|y' ys] [|i] Ex Ey;
    simpl in *; try discriminate; try congruence.
  now apply IH.
Qed.

Lemma nth_error_defined {A : Type} (l : list A) i :
  (i < length l)%nat -> exists x, nth_error l i = Some x.
Proof.
  intros L. destruct (nth_error l i) as [x|] eqn:E; [now exists x|].
  apply nth_error_None in E. lia.
Qed.

Lemma gather_nth_error rows index q i a (r : list F) :
  gather rows index = Some q ->
  nth_error index i = Some a -> nth_error rows i = Some r ->
  0 <= a /\ nth_error q i = nth_error r (Z.to_nat a).
Proof.
  revert rows q i.
  induction index as [|a' index IH]; intros [|r' rows] q [|i] G Ea Er;
    simpl in *; try discriminate.
  - injection Ea as ->. injection Er as ->.
    destruct (Z.ltb_spec a 0) as [|Ha]; [discriminate|].
    destruct (nth_error r (Z.to_nat a)) as [v|]; [|discriminate].
    simpl in G. destruct (gather rows index); [|discriminate].
    injection G as <-. now split.
  - destruct (a' <? 0); [discriminate|].
    destruct (nth_error r' (Z.to_nat a')) as [v|]; [|discriminate].
    simpl in G. destruct (gather rows index) as [vs|] eqn:G'; [|discriminate].
    injection G as <-. simpl. now apply (IH rows vs i).
Qed.

Lemma max_dim1_nth_error (rows : list (list F)) m i r :
  max_dim1 rows = Some m -> nth_error rows i = Some r ->
  exists v, row_max r = Some v /\ nth_error m i = Some v.
Proof.
  revert m i.
  induction rows as [|r' rows IH]; intros m [|i] M Er; simpl in *;
    try discriminate.
  - injection Er as ->. destruct (row_max r) as [v|]; [|discriminate].
    simpl in M. destruct (max_dim1 rows); [|discriminate].
    injection M as <-. now exists v.
  - destruct (row_max r'); [|discriminate]. simpl in M.
    destruct (max_dim1 rows) as [ms|]; [|discriminate].
    injection M as <-. simpl. now apply IH.
Qed.

Lemma masked_fill_zero_defined (t : list F) mask :
  length mask = length t ->
  masked_fill_zero t mask
  = Some (map2 (fun (d : bool) v => if d then f_zero else v) mask t).
Proof.
  intros E. unfold masked_fill_zero. now rewrite E, Nat.eqb_refl.
Qed.
End TensorFacts.

(** ** The loss *)

Section LossFacts.
Context {F Params Obs World Buffer : Type}.
Context `{Scalar F} `{Network Params Obs F}.
Implicit Types (self : @PERDQN F Params World Buffer).
Implicit Types (batch : @Batch F Obs).

Lemma Forall2_map_l {A B C : Type} (g : A -> B) (P : B -> C -> Prop) xs ys :
  Forall2 (fun x y => P (g x) y) xs ys -> Forall2 P (map g xs) ys.
Proof. induction 1; simpl; constructor; auto. Qed.

Lemma state_action_vals_defined n self batch ws :
  well_shaped n batch ws -> actions_in_range self batch ->
  exists q, state_action_vals self batch = Some q /\ length q = n.
Proof.
  intros (_ & La & _) R. unfold state_action_vals.
  destruct (gather_defined (rows := map (forward (net self)) (states batch))
              (index := actions batch)) as [q [Eq Lq]].
  - apply Forall2_map_l. exact R.
  - exists q. split; [exact Eq | congruence].
Qed.

Lemma next_s_vals_defined n self batch ws :
  well_shaped n batch ws -> target_rows_nonempty self batch ->
  exists m,
    max_dim1 (map (forward (target_net self)) (next_states batch)) = Some m
    /\ length m = n
    /\ next_s_vals self batch
       = Some (map2 (fun (d : bool) v => if d then f_zero else v)
                 (dones batch) m).
Proof.
  intros (_ & _ & _ & Ld & Ln & _) R. unfold next_s_vals.
  destruct (max_dim1_defined
              (rows := map (forward (target_net self)) (next_states batch)))
    as [m [Em Lm]].
  - apply Forall_map. exact R.
  - rewrite length_map in Lm. exists m. rewrite Em. simpl.
    repeat split; [congruence|].
    apply masked_fill_zero_defined. congruence.
Qed.

Lemma exp_sa_vals_defined n self batch ws :
  well_shaped n batch ws -> target_rows_nonempty self batch ->
  exists nv,
    next_s_vals self batch = Some nv /\ length nv = n
    /\ exp_sa_vals self batch
       = Some (map2 f_add (map (fun v => f_mul v (gamma self)) nv)
                 (rewards batch)).
Proof.
  intros W R.
  destruct (next_s_vals_defined W R) as (m & _ & Lm & Env).
  destruct W as (_ & _ & Lr & Ld & _).
  eexists. split; [exact Env|].
  assert (L : length (map2 (fun (d : bool) v => if d then f_zero else v)
                        (dones batch) m) = n)
    by (rewrite map2_length; congruence).
  split; [exact L|].
  unfold exp_sa_vals. rewrite Env. simpl.
  apply broadcast2_same_length. rewrite length_map. congruence.
Qed.

Lemma exp_sa_vals_length n self batch ws t :
  well_shaped n batch ws -> target_rows_nonempty self batch ->
  exp_sa_vals self batch = Some t -> length t = n.
Proof.
  intros W R Et.
  destruct (exp_sa_vals_defined W R) as (nv & _ & Lnv & E).
  rewrite E in Et. injection Et as <-.
  destruct W as (_ & _ & Lr & _).
  rewrite map2_length; rewrite length_map; congruence.
Qed.

(** The tensor code computes, entry by entry, what the specification
    says of each sample. *)
Lemma weighted_losses_table n (ws q t : list F) :
  length ws = n -> length q = n -> length t = n ->
  map2 f_mul ws (map (fun d => f_mul d d) (map2 f_sub q t))
  = map (weighted_sq_err ws q t) (seq 0 n).
Proof.
  intros Lw Lq Lt.
  assert (Ld : length (map2 f_sub q t) = n)
    by (rewrite map2_length; congruence).
  apply list_eq_table with (d := f_zero).
  - rewrite map2_length; rewrite ?length_map; congruence.
  - intros i Hi.
    rewrite (map2_nth f_mul ws _ f_zero (f_mul f_zero f_zero) f_zero)
      by (rewrite ?length_map; congruence || lia).
    rewrite (map_nth (fun d => f_mul d d) (map2 f_sub q t) f_zero i).
    rewrite (map2_nth f_sub q t f_zero f_zero f_zero)
      by (congruence || lia).
    reflexivity.
Qed.

Lemma loss_on_vals n self batch ws q t :
  state_action_vals self batch = Some q -> exp_sa_vals self batch = Some t ->
  length ws = n -> length q = n -> length t = n ->
  loss self batch ws
  = Some (spec_loss n ws q t, spec_priorities n ws q t).
Proof.
  intros Eq Et Lw Lq Lt. unfold loss. rewrite Eq, Et. simpl.
  rewrite (broadcast2_same_length f_sub q t) by congruence. simpl.
  rewrite broadcast2_same_length
    by (rewrite length_map, map2_length; congruence).
  simpl. rewrite weighted_losses_table with (n := n) by assumption.
  unfold spec_loss, spec_priorities, mean.
  rewrite length_map, length_seq, map_map. reflexivity.
Qed.

(** The loss of a well-formed minibatch is defined. *)
Lemma loss_defined n self batch ws :
  well_shaped n batch ws -> actions_in_range self batch ->
  target_rows_nonempty self batch ->
  exists q t,
    state_action_vals self batch = Some q /\ length q = n /\
    exp_sa_vals self batch = Some t /\ length t = n /\
    loss self batch ws
    = Some (spec_loss n ws q t, spec_priorities n ws q t).
Proof.
  intros W Ra Rt.
  destruct (state_action_vals_defined W Ra) as (q & Eq & Lq).
  destruct (exp_sa_vals_defined W Rt) as (nv & _ & _ & Et).
  pose proof (exp_sa_vals_length W Rt Et) as Lt.
  exists q. eexists. repeat split; try eassumption.
  apply loss_on_vals; try assumption.
  destruct W as (_ & _ & _ & _ & _ & Lw). exact Lw.
Qed.

(** Entry [i] of the two tensors is the prediction and the target of
    sample [i]. *)
Lemma state_action_vals_at n self batch ws q i :
  well_shaped n batch ws -> state_action_vals self batch = Some q ->
  (i < n)%nat -> nth_error q i = q_pred_at self batch i.
Proof.
  intros (Ls & La & _) Eq Hi. unfold q_pred_at.
  destruct (@nth_error_defined _ (states batch) i) as [s Es]; [lia|].
  destruct (@nth_error_defined _ (actions batch) i) as [a Ea]; [lia|].
  rewrite Es, Ea. simpl.
  apply (@gather_nth_error _ (map (forward (net self)) (states batch))
           (actions batch) q i a (forward (net self) s) Eq Ea).
  rewrite nth_error_map, Es. reflexivity.
Qed.

Lemma exp_sa_vals_at n self batch ws t i :
  well_shaped n batch ws -> target_rows_nonempty self batch ->
  exp_sa_vals self batch = Some t ->
  (i < n)%nat -> nth_error t i = q_target_at self batch i.
Proof.
  intros W R Et Hi.
  destruct (next_s_vals_defined W R) as (m & Em & Lm & Env).
  destruct (exp_sa_vals_defined W R) as (nv & Env' & _ & Et').
  rewrite Env in Env'. injection Env' as <-.
  rewrite Et' in Et. injection Et as <-.
  destruct W as (_ & _ & Lr & Ld & Ln & _).
  destruct (@nth_error_defined _ (next_states batch) i) as [s Es]; [lia|].
  destruct (@nth_error_defined _ (dones batch) i) as [d Ed]; [lia|].
  destruct (@nth_error_defined _ (rewards batch) i) as [r Er]; [lia|].
  destruct (@max_dim1_nth_error _ _ _ m i (forward (target_net self) s) Em)
    as (v & Ev & Emi).
  { rewrite nth_error_map, Es. reflexivity. }
  unfold q_target_at. rewrite Es, Ed, Er. simpl. rewrite Ev. simpl.
  apply map2_nth_error; [|exact Er].
  rewrite nth_error_map.
  rewrite (@map2_nth_error _ _ _
             (fun (d : bool) v => if d then f_zero else v)
             _ _ i d v Ed Emi).
  reflexivity.
Qed.

(** C2: the training loss that [loss] returns for a well-formed minibatch
    is the mean over the samples of
    [weight_i * (q_pred_i - q_target_i)^2], the squared error scaled by
    the importance weight, where [q_pred] and [q_target] are the tensors
    [state_action_vals] and [exp_sa_vals] of the code, whose entries are
    the prediction and the target of each sample. *)
Theorem loss_is_weighted_mean_squared_error n self batch ws :
  well_shaped n batch ws -> actions_in_range self batch ->
  target_rows_nonempty self batch ->
  exists q_pred q_target priorities,
    state_action_vals self batch = Some q_pred /\
    exp_sa_vals self batch = Some q_target /\
    (forall i, (i < n)%nat ->
       nth_error q_pred i = q_pred_at self batch i /\
       nth_error q_target i = q_target_at self batch i) /\
    loss self batch ws = Some (spec_loss n ws q_pred q_target, priorities).
Proof.
  intros W Ra Rt.
  destruct (loss_defined W Ra Rt) as (q & t & Eq & _ & Et & _ & El).
  exists q, t. eexists. repeat split; try eassumption.
  - eapply state_action_vals_at; eassumption.
  - eapply exp_sa_vals_at; eassumption.
Qed.
End LossFacts.


(** ** The training step *)

Section StepFacts.
Context {F Params Obs Exp World Buffer : Type}.
Context `{Scalar F} `{Network Params Obs F} `{Source World Params Exp F}
        `{ReplayBuffer Buffer Exp F}.
Implicit Types (self : @PERDQN F Params World Buffer).
Implicit Types (samples : @Batch F Obs).

(** [loss] reads the two networks and [gamma] only. *)
Lemma loss_after_env_step self (w : World) (b : Buffer) r samples ws :
  loss (after_env_step self w b r) samples ws = loss self samples ws.
Proof. reflexivity. Qed.

(** A step whose loss is defined, whose priority update is accepted and
    whose [sync_rate] is not zero completes, in [step_state]. *)
Lemma training_step_runs self samples indices ws l ps b :
  loss self samples ws = Some (l, ps) ->
  update_priorities (append (buffer self) (step_exp self)) indices ps
  = Some b ->
  sync_rate self <> 0 ->
  exists out,
    training_step self (samples, indices, ws) = Some (step_state self b, out)
    /\ loss_value (out_loss out) = l.
Proof.
  intros Hl Hu Hs.
  unfold training_step, step_state, step_exp, step_reward, step_done,
    env_transition in *.
  destruct (source_step (net self)
              (update_epsilon (global_step self) (world self)))
    as [w [[e r] d]].
  rewrite loss_after_env_step, Hl. simpl in *. rewrite Hu. simpl.
  unfold py_mod.
  destruct d; simpl;
    (destruct (Z.eqb_spec (sync_rate self) 0) as [|_]; [contradiction|]);
    simpl;
    destruct (global_step self mod sync_rate self =? 0);
    (eexists; split;
     [reflexivity | destruct (use_dp self || use_ddp2 self); reflexivity]).
Qed.
End StepFacts.

(** Runs the step under the three hypotheses and leaves the facts about
    the state it reaches to be proved. *)
Ltac run_step Hl Hu Hs :=
  let out := fresh "out" in
  let Hrun := fresh "Hrun" in
  destruct (@training_step_runs _ _ _ _ _ _ _ _ _ _ _ _ _ _ _ _ _ Hl Hu Hs)
    as (out & Hrun & _);
  eexists; exists out; split; [exact Hrun|].

Section StepClaims.
Context {F Params Obs Exp World Buffer : Type}.
Context `{Scalar F} `{Network Params Obs F} `{Source World Params Exp F}
        `{ReplayBuffer Buffer Exp F}.
Implicit Types (self : @PERDQN F Params World Buffer).
Implicit Types (samples : @Batch F Obs).

(** C3: for a well-formed minibatch the priorities that [loss] returns are,
    sample by sample, [weight_i * (q_pred_i - q_target_i)^2 + 1e-5], and the
    buffer that [training_step] leaves is the result of [update_priorities]
    at the sampled indices with exactly these values. *)
Theorem priorities_are_weighted_loss_plus_eps n self samples indices ws :
  well_shaped n samples ws -> actions_in_range self samples ->
  target_rows_nonempty self samples ->
  exists q_pred q_target l,
    state_action_vals self samples = Some q_pred /\
    exp_sa_vals self samples = Some q_target /\
    loss self samples ws = Some (l, spec_priorities n ws q_pred q_target) /\
    forall b,
      update_priorities (append (buffer self) (step_exp self)) indices
        (spec_priorities n ws q_pred q_target) = Some b ->
      sync_rate self <> 0 ->
      exists self' out,
        training_step self (samples, indices, ws) = Some (self', out) /\
        buffer self' = b.
Proof.
  intros W Ra Rt.
  destruct (loss_defined W Ra Rt) as (q & t & Eq & _ & Et & _ & El).
  exists q, t. eexists. repeat split; try eassumption.
  intros b Hu Hs. run_step El Hu Hs.
  unfold step_state.
  destruct (step_done self), (global_step self mod sync_rate self =? 0);
    reflexivity.
Qed.

(** C5: a step taken when the global step count is a multiple of
    [sync_rate] overwrites the target network's parameters with the online
    network's, as they are; any other step leaves the target network's
    parameters as they were. *)
Theorem target_synced_exactly_on_multiples self samples indices ws l ps b :
  loss self samples ws = Some (l, ps) ->
  update_priorities (append (buffer self) (step_exp self)) indices ps
  = Some b ->
  sync_rate self <> 0 ->
  exists self' out,
    training_step self (samples, indices, ws) = Some (self', out) /\
    net self' = net self /\
    ((sync_rate self | global_step self) -> target_net self' = net self) /\
    (~ (sync_rate self | global_step self) ->
     target_net self' = target_net self).
Proof.
  intros Hl Hu Hs. run_step Hl Hu Hs.
  pose proof (Z.mod_divide (global_step self) (sync_rate self) Hs) as D.
  unfold step_state.
  destruct (Z.eqb_spec (global_step self mod sync_rate self) 0) as [E|E];
    destruct (step_done self); simpl; repeat split; intros M;
    try reflexivity; exfalso; tauto.
Qed.

(** C6: a step whose environment transition has [done] set finalizes the
    episode: the accumulated episode reward (this step's reward included)
    becomes the total reward and is appended to the reward history, the
    trailing average is recomputed from the history, the episode count
    grows by one, the episode's step count is recorded as the last
    completed one, and both accumulators of the current episode are reset
    to zero. *)
Theorem done_step_finalizes_episode self samples indices ws l ps b :
  loss self samples ws = Some (l, ps) ->
  update_priorities (append (buffer self) (step_exp self)) indices ps
  = Some b ->
  sync_rate self <> 0 ->
  step_done self = true ->
  exists self' out,
    training_step self (samples, indices, ws) = Some (self', out) /\
    total_reward self' = f_add (episode_reward self) (step_reward self) /\
    reward_list self' = reward_list self ++ [total_reward self'] /\
    avg_reward self'
    = f_div (sum (last_n 100 (reward_list self'))) (f_of_Z 100) /\
    episode_count self' = episode_count self + 1 /\
    total_episode_steps self' = episode_steps self + 1 /\
    episode_reward self' = f_zero /\
    episode_steps self' = 0.
Proof.
  intros Hl Hu Hs Hd. run_step Hl Hu Hs.
  unfold step_state. rewrite Hd.
  destruct (global_step self mod sync_rate self =? 0); simpl;
    repeat split; reflexivity.
Qed.

(** C8: a step whose environment transition has [done] unset leaves the
    total reward, the reward history, the trailing average, the episode
    count and the last completed episode's step count as they were; the
    episode reward grows by the step's reward and the episode step count
    by one. *)
Theorem not_done_step_keeps_history self samples indices ws l ps b :
  loss self samples ws = Some (l, ps) ->
  update_priorities (append (buffer self) (step_exp self)) indices ps
  = Some b ->
  sync_rate self <> 0 ->
  step_done self = false ->
  exists self' out,
    training_step self (samples, indices, ws) = Some (self', out) /\
    total_reward self' = total_reward self /\
    reward_list self' = reward_list self /\
    avg_reward self' = avg_reward self /\
    episode_count self' = episode_count self /\
    total_episode_steps self' = total_episode_steps self /\
    episode_reward self' = f_add (episode_reward self) (step_reward self) /\
    episode_steps self' = episode_steps self + 1.
Proof.
  intros Hl Hu Hs Hd. run_step Hl Hu Hs.
  unfold step_state. rewrite Hd.
  destruct (global_step self mod sync_rate self =? 0); simpl;
    repeat split; reflexivity.
Qed.

(** C10: at global step 0 the test [global_step % sync_rate == 0] succeeds
    for every positive [sync_rate], so the very first training step
    overwrites the target network with the online network's parameters. *)
Theorem first_step_syncs_target self samples indices ws l ps b :
  loss self samples ws = Some (l, ps) ->
  update_priorities (append (buffer self) (step_exp self)) indices ps
  = Some b ->
  0 < sync_rate self ->
  global_step self = 0 ->
  py_mod (global_step self) (sync_rate self) = Some 0 /\
  exists self' out,
    training_step self (samples, indices, ws) = Some (self', out) /\
    target_net self' = net self.
Proof.
  intros Hl Hu Hp Hg.
  assert (Hs : sync_rate self <> 0) by lia.
  split.
  - unfold py_mod. rewrite Hg.
    destruct (Z.eqb_spec (sync_rate self) 0) as [|_]; [contradiction|].
    now rewrite Z.mod_0_l.
  - run_step Hl Hu Hs.
    unfold step_state. rewrite Hg, Z.mod_0_l by assumption. simpl.
    destruct (step_done self); reflexivity.
Qed.
End StepClaims.


(** ** Terminal rows *)

Section TerminalRows.
Context {F Params Obs World Buffer : Type}.
Context `{Scalar F} `{Network Params Obs F}.
Implicit Types (self : @PERDQN F Params World Buffer).
Implicit Types (samples : @Batch F Obs).

(** Whatever the scalars are: in a row whose [done] flag is set the masked
    next-state value is the literal zero, and the target is
    [0 * gamma + reward]. *)
Lemma terminal_row n self samples ws :
  well_shaped n samples ws -> target_rows_nonempty self samples ->
  exists nv t,
    next_s_vals self samples = Some nv /\
    exp_sa_vals self samples = Some t /\
    forall i r,
      nth_error (dones samples) i = Some true ->
      nth_error (rewards samples) i = Some r ->
      nth_error nv i = Some f_zero /\
      nth_error t i = Some (f_add (f_mul f_zero (gamma self)) r).
Proof.
  intros W R.
  destruct (next_s_vals_defined W R) as (m & _ & Lm & Env).
  destruct (exp_sa_vals_defined W R) as (nv & Env' & _ & Et).
  rewrite Env in Env'. injection Env' as <-.
  eexists. eexists. split; [exact Env|]. split; [exact Et|].
  intros i r Ed Er.
  assert (Hi : (i < n)%nat).
  { destruct W as (_ & _ & _ & Ld & _). rewrite <- Ld.
    apply nth_error_Some. congruence. }
  destruct (@nth_error_defined _ m i) as [v Ev]; [lia|].
  assert (Ez : nth_error
                 (map2 (fun (d : bool) v => if d then f_zero else v)
                    (dones samples) m) i = Some f_zero)
    by (apply (@map2_nth_error _ _ _
                 (fun (d : bool) v => if d then f_zero else v)
                 _ _ i true v Ed Ev)).
  split; [exact Ez|].
  apply map2_nth_error; [|exact Er].
  rewrite nth_error_map, Ez. reflexivity.
Qed.
End TerminalRows.


(** ** Exact arithmetic

    The claims that rest on the laws of arithmetic, with the scalars the
    rationals. *)

Section ExactArithmetic.
Context {Params Obs Exp World Buffer : Type}.
Context `{Network Params Obs Q} `{Source World Params Exp Q}
        `{ReplayBuffer Buffer Exp Q}.
Implicit Types (self : @PERDQN Q Params World Buffer).
Implicit Types (samples : @Batch Q Obs).

Lemma Qsquare_nonneg (d : Q) : (0 <= d * d)%Q.
Proof.
  unfold Qle, Qmult. simpl. rewrite Z.mul_1_r. apply Z.square_nonneg.
Qed.

Lemma Forall_nth_default {A : Type} (P : A -> Prop) l d i :
  Forall P l -> P d -> P (nth i l d).
Proof.
  intros Hl Hd. revert i. induction Hl; intros [|i]; simpl; auto.
Qed.

Lemma weighted_sq_err_nonneg (ws q t : list Q) i :
  Forall (fun w => 0 <= w)%Q ws -> (0 <= weighted_sq_err ws q t i)%Q.
Proof.
  intros Hw. unfold weighted_sq_err. simpl.
  apply Qmult_le_0_compat.
  - apply Forall_nth_default; [exact Hw | apply Qle_refl].
  - apply Qsquare_nonneg.
Qed.


(** C1: in every row of the minibatch whose [done] flag is set the
    next-state value is forced to exactly 0, and the bootstrapped target of
    that row equals its reward, whatever [gamma] is. *)
Theorem terminal_rows_target_is_reward n self samples ws :
  well_shaped n samples ws -> target_rows_nonempty self samples ->
  exists q_next q_target,
    next_s_vals self samples = Some q_next /\
    exp_sa_vals self samples = Some q_target /\
    forall i r,
      nth_error (dones samples) i = Some true ->
      nth_error (rewards samples) i = Some r ->
      nth_error q_next i = Some 0%Q /\
      exists ti, nth_error q_target i = Some ti /\ (ti == r)%Q.
Proof.
  intros W R.
  destruct (terminal_row W R) as (nv & t & Env & Et & Hrow).
  exists nv, t. repeat split; try assumption.
  - now apply (Hrow i r).
  - destruct (Hrow i r) as [_ E]; try assumption.
    eexists. split; [exact E|]. simpl. ring.
Qed.


End ExactArithmetic.


(** ** The priority store keeps its priorities positive *)

Section StoreFacts.
Context {E : Type}.
Implicit Types (s : @PriorityStore.t Q E).








End StoreFacts.


(** ** IEEE arithmetic *)

Section IEEE.
Context {Params Obs Exp World Buffer : Type}.
Context `{Network Params Obs spec_float} `{Source World Params Exp spec_float}
        `{ReplayBuffer Buffer Exp spec_float}.
Implicit Types (self : @PERDQN spec_float Params World Buffer).
Implicit Types (samples : @Batch spec_float Obs).

(** The target of a terminal row in binary64, for a finite [gamma]: the
    reward itself, but for the sign of a zero reward. *)
Lemma b64_terminal_target (g r : spec_float) :
  B64.is_finite g = true ->
  f_add (f_mul f_zero g) r = r \/
  exists s s', r = S754_zero s /\ f_add (f_mul f_zero g) r = S754_zero s'.
Proof.
  intros Hg. destruct g as [sg| | |sg mg eg]; try discriminate;
    destruct r as [sr|sr| |sr mr er]; simpl; auto;
    right; exists sr; destruct sg, sr; simpl; eexists; split; reflexivity.
Qed.

(** C9, as the code has it: the step hands the priorities that [loss]
    returned to [update_priorities] as they are, and the buffer it leaves is
    the result of that update; nothing tests whether the values are
    finite. *)
Theorem priorities_written_back_unchecked self samples indices ws l ps b :
  loss self samples ws = Some (l, ps) ->
  update_priorities (append (buffer self) (step_exp self)) indices ps
  = Some b ->
  sync_rate self <> 0 ->
  exists self' out,
    training_step self (samples, indices, ws) = Some (self', out) /\
    buffer self' = b /\
    loss_value (out_loss out) = l.
Proof.
  intros Hl Hu Hs.
  destruct (@training_step_runs _ _ _ _ _ _ _ _ _ _ _ _ _ _ _ _ _ Hl Hu Hs)
    as (out & Hrun & Hout).
  eexists. exists out. split; [exact Hrun|]. split; [|exact Hout].
  unfold step_state.
  destruct (step_done self), (global_step self mod sync_rate self =? 0);
    reflexivity.
Qed.
End IEEE.


(** ** Concrete runs *)

Section Runs.

(** In [done_run] every step ends an episode, at global step 0; in
    [going_run] none of the first nine does, at global step 3. *)
Local Abbreviation done_run := (Run.start (F:=Q) 1 0 5%Q 1).
Local Abbreviation going_run := (Run.start (F:=Q) 1 3 5%Q 10).
Local Abbreviation samples := (Run.samples (F:=Q)).
Local Abbreviation weights := (Run.weights (F:=Q)).
Local Abbreviation indices := Run.indices.

Ltac shape_hyps :=
  first
    [ now (repeat split)
    | now (repeat (apply Forall2_cons; [simpl; lia|]); apply Forall2_nil)
    | now (repeat (apply Forall_cons; [discriminate|]); apply Forall_nil)
    | now (repeat (apply Forall_cons; [unfold Qle; simpl; lia|]);
           apply Forall_nil) ].

Ltac step_hyps := first [ reflexivity | discriminate | simpl; lia ].

Example done_run_loss :
  loss done_run samples weights
  = Some ((73 # 2)%Q, [(100001 # 100000)%Q; (7200001 # 100000)%Q]).
Proof. vm_compute. reflexivity. Qed.

Lemma terminal_rows_target_is_reward_witness :
  exists q_next q_target,
    next_s_vals done_run samples = Some q_next /\
    exp_sa_vals done_run samples = Some q_target /\
    forall i r,
      nth_error (dones samples) i = Some true ->
      nth_error (rewards samples) i = Some r ->
      nth_error q_next i = Some 0%Q /\
      exists ti, nth_error q_target i = Some ti /\ (ti == r)%Q.
Proof.
  apply (terminal_rows_target_is_reward (n := 2) (ws := weights));
    shape_hyps.
Defined.

Lemma loss_is_weighted_mean_squared_error_witness :
  exists q_pred q_target priorities,
    state_action_vals done_run samples = Some q_pred /\
    exp_sa_vals done_run samples = Some q_target /\
    (forall i, (i < 2)%nat ->
       nth_error q_pred i = q_pred_at done_run samples i /\
       nth_error q_target i = q_target_at done_run samples i) /\
    loss done_run samples weights
    = Some (spec_loss 2 weights q_pred q_target, priorities).
Proof.
  apply (loss_is_weighted_mean_squared_error (n := 2)); shape_hyps.
Defined.

Lemma priorities_are_weighted_loss_plus_eps_witness :
  exists q_pred q_target l,
    state_action_vals done_run samples = Some q_pred /\
    exp_sa_vals done_run samples = Some q_target /\
    loss done_run samples weights
    = Some (l, spec_priorities 2 weights q_pred q_target) /\
    forall b,
      update_priorities (append (buffer done_run) (step_exp done_run))
        indices (spec_priorities 2 weights q_pred q_target) = Some b ->
      sync_rate done_run <> 0 ->
      exists self' out,
        training_step done_run (samples, indices, weights)
        = Some (self', out) /\
        buffer self' = b.
Proof.
  apply (priorities_are_weighted_loss_plus_eps (n := 2)); shape_hyps.
Defined.


Lemma target_synced_exactly_on_multiples_witness :
  exists self' out,
    training_step done_run (samples, indices, weights) = Some (self', out) /\
    net self' = net done_run /\
    ((sync_rate done_run | global_step done_run) ->
     target_net self' = net done_run) /\
    (~ (sync_rate done_run | global_step done_run) ->
     target_net self' = target_net done_run).
Proof.
  eapply target_synced_exactly_on_multiples; step_hyps.
Defined.

Lemma done_step_finalizes_episode_witness :
  exists self' out,
    training_step done_run (samples, indices, weights) = Some (self', out) /\
    total_reward self'
    = f_add (episode_reward done_run) (step_reward done_run) /\
    reward_list self' = reward_list done_run ++ [total_reward self'] /\
    avg_reward self'
    = f_div (sum (last_n 100 (reward_list self'))) (f_of_Z 100) /\
    episode_count self' = episode_count done_run + 1 /\
    total_episode_steps self' = episode_steps done_run + 1 /\
    episode_reward self' = f_zero /\
    episode_steps self' = 0.
Proof.
  eapply done_step_finalizes_episode; step_hyps.
Defined.


Lemma not_done_step_keeps_history_witness :
  exists self' out,
    training_step going_run (samples, indices, weights) = Some (self', out) /\
    total_reward self' = total_reward going_run /\
    reward_list self' = reward_list going_run /\
    avg_reward self' = avg_reward going_run /\
    episode_count self' = episode_count going_run /\
    total_episode_steps self' = total_episode_steps going_run /\
    episode_reward self'
    = f_add (episode_reward going_run) (step_reward going_run) /\
    episode_steps self' = episode_steps going_run + 1.
Proof.
  eapply not_done_step_keeps_history; step_hyps.
Defined.

Lemma first_step_syncs_target_witness :
  py_mod (global_step done_run) (sync_rate done_run) = Some 0 /\
  exists self' out,
    training_step done_run (samples, indices, weights) = Some (self', out) /\
    target_net self' = net done_run.
Proof.
  eapply first_step_syncs_target; step_hyps.
Defined.

(** One completed episode of reward 5: the average is 5/100. *)
Example one_episode_of_reward_5 :
  option_map (fun r => (total_reward (fst r), episode_count (fst r),
                        avg_reward (fst r), target_net (fst r)))
    (training_step done_run (samples, indices, weights))
  = Some (5%Q, 1, (5 # 100)%Q, 1).
Proof. vm_compute. reflexivity. Qed.

(** At step 3 with [sync_rate] 4 the target network keeps its parameters. *)
Example no_sync_at_step_3 :
  option_map (fun r => (target_net (fst r), episode_reward (fst r),
                        episode_steps (fst r), reward_list (fst r)))
    (training_step going_run (samples, indices, weights))
  = Some (2, 5%Q, 1, []).
Proof. vm_compute. reflexivity. Qed.
End Runs.


(** ** Concrete runs in binary64 *)

Section IEEERuns.

(** [big_run] is [done_run] with an online network whose action values are
    near [2^600]: finite, with a square that is not. *)
Local Abbreviation big_run :=
  (Run.start (F:=spec_float) (2 ^ 600) 0 (B64.of_Z 5) 1).
Local Abbreviation small_run :=
  (Run.start (F:=spec_float) 1 0 (B64.of_Z 5) 1).
Local Abbreviation samples := (Run.samples (F:=spec_float)).
Local Abbreviation weights := (Run.weights (F:=spec_float)).
Local Abbreviation indices := Run.indices.

(** Everything that enters the step is finite. *)
Example big_run_inputs_finite :
  forallb B64.is_finite
    (gamma big_run :: weights ++ rewards samples
     ++ concat (map (forward (net big_run)) (states samples))
     ++ concat (map (forward (target_net big_run)) (next_states samples))
     ++ PriorityStore.priorities (buffer big_run))
  = true.
Proof. vm_compute. reflexivity. Qed.

(** C9 fails on the code: the squared error of [big_run] overflows, the
    loss and both priorities that [loss] returns are infinite, and the step
    completes with these infinities written into the store as the
    priorities of the sampled slots 0 and 1. *)
Lemma overflowed_loss_is_written_back :
  loss big_run samples weights
  = Some (S754_infinity false, [S754_infinity false; S754_infinity false]) /\
  match training_step big_run (samples, indices, weights) with
  | Some (self', out) =>
      PriorityStore.priorities (buffer self')
      = [S754_infinity false; S754_infinity false; B64.of_Z 1] /\
      forallb B64.is_finite (PriorityStore.priorities (buffer self')) = false
  | None => False
  end.
Proof. vm_compute. repeat split. Qed.

Lemma priorities_written_back_unchecked_witness :
  exists self' out,
    training_step big_run (samples, indices, weights) = Some (self', out) /\
    buffer self'
    = {| PriorityStore.capacity := 3;
         PriorityStore.slots :=
           [(10, S754_infinity false); (11, S754_infinity false);
            (0, B64.of_Z 1)];
         PriorityStore.cursor := 0;
         PriorityStore.epsilon_floor := S754_zero false |} /\
    loss_value (out_loss out) = S754_infinity false.
Proof.
  eapply (priorities_written_back_unchecked big_run samples indices weights);
    [vm_compute; reflexivity | vm_compute; reflexivity | discriminate].
Defined.


(** A weight of zero on an overflowed squared error gives a priority that
    is not a number. *)
Example zero_weight_on_overflow :
  loss big_run samples [f_zero; f_of_Z 2]
  = Some (S754_nan, [S754_nan; S754_infinity false]).
Proof. vm_compute. reflexivity. Qed.

(** With an infinite [gamma] the target of a terminal row is not its
    reward. *)
Example infinite_gamma_terminal_target :
  f_add (f_mul f_zero (S754_infinity false)) (B64.of_Z 1) = S754_nan.
Proof. vm_compute. reflexivity. Qed.

(** One completed episode of reward 5.0: the average is the double 0.05. *)
Example one_episode_of_reward_5_b64 :
  option_map (fun r => (total_reward (fst r), episode_count (fst r),
                        avg_reward (fst r)))
    (training_step small_run (samples, indices, weights))
  = Some (S754_finite false 5629499534213120 (-50), 1,
          S754_finite false 7205759403792794 (-57)).
Proof. vm_compute. reflexivity. Qed.
End IEEERuns.


(** * Further properties *)

(** ** When a step completes, and what it returns *)

Section StepOutcome.
Context {F Params Obs Exp World Buffer : Type}.
Context `{Scalar F} `{Network Params Obs F} `{Source World Params Exp F}
        `{ReplayBuffer Buffer Exp F}.
Implicit Types (self : @PERDQN F Params World Buffer).
Implicit Types (samples : @Batch F Obs).

(** The result record of a step that completes. *)
Lemma training_step_output self samples indices ws l ps b :
  loss self samples ws = Some (l, ps) ->
  update_priorities (append (buffer self) (step_exp self)) indices ps
  = Some b ->
  sync_rate self <> 0 ->
  let self' := step_state self b in
  let reported :=
    if use_dp self || use_ddp2 self then Unsqueezed l else Scalar0 l in
  training_step self (samples, indices, ws)
  = Some (self',
          {| out_loss := reported;
             log_total_reward := total_reward self';
             log_avg_reward := avg_reward self';
             log_train_loss := reported;
             log_episode_steps := total_episode_steps self';
             bar_steps := global_step self';
             bar_avg_reward := avg_reward self';
             bar_total_reward := total_reward self';
             bar_episodes := episode_count self';
             bar_episode_steps := episode_steps self';
             bar_epsilon := epsilon (world self') |}).
Proof.
  intros Hl Hu Hs.
  unfold training_step, step_state, step_exp, step_reward, step_done,
    env_transition in *.
  destruct (source_step (net self)
              (update_epsilon (global_step self) (world self)))
    as [w [[e r] d]].
  rewrite loss_after_env_step, Hl. simpl in *. rewrite Hu. simpl.
  unfold py_mod.
  destruct d; simpl;
    (destruct (Z.eqb_spec (sync_rate self) 0) as [|_]; [contradiction|]);
    simpl;
    destruct (global_step self mod sync_rate self =? 0); reflexivity.
Qed.

(** A step returns only through a defined loss, an accepted priority update
    and a non-zero [sync_rate], and then in [step_state]. *)
Lemma training_step_inversion self samples indices ws self' out :
  training_step self (samples, indices, ws) = Some (self', out) ->
  exists l ps b,
    loss self samples ws = Some (l, ps) /\
    update_priorities (append (buffer self) (step_exp self)) indices ps
    = Some b /\
    sync_rate self <> 0 /\
    self' = step_state self b.
Proof.
  unfold training_step, step_state, step_exp, step_reward, step_done,
    env_transition.
  destruct (source_step (net self)
              (update_epsilon (global_step self) (world self)))
    as [w [[e r] d]].
  rewrite loss_after_env_step.
  destruct (loss self samples ws) as [[l ps]|] eqn:El; [|discriminate].
  simpl.
  destruct (update_priorities (append (buffer self) e) indices ps)
    as [b|] eqn:Eu; [|discriminate].
  simpl. unfold py_mod.
  destruct (Z.eqb_spec (sync_rate self) 0) as [Hs|Hs].
  - destruct d; simpl; rewrite Hs; discriminate.
  - intros E. exists l, ps, b. repeat split; try assumption.
    destruct d; simpl in *;
      (destruct (Z.eqb_spec (sync_rate self) 0) as [|_]; [contradiction|]);
      simpl in E;
      destruct (global_step self mod sync_rate self =? 0);
      injection E as <- _; reflexivity.
Qed.
End StepOutcome.

(** Runs the step as [run_step] does, keeping the result record. *)
Ltac run_step_out Hl Hu Hs :=
  let Hrun := fresh "Hrun" in
  pose proof
    (@training_step_output _ _ _ _ _ _ _ _ _ _ _ _ _ _ _ _ _ Hl Hu Hs)
    as Hrun;
  cbv zeta in Hrun;
  eexists; eexists; split; [exact Hrun|].

Section StepExtras.
Context {F Params Obs Exp World Buffer : Type}.
Context `{Scalar F} `{Network Params Obs F} `{Source World Params Exp F}
        `{ReplayBuffer Buffer Exp F}.
Implicit Types (self : @PERDQN F Params World Buffer).
Implicit Types (samples : @Batch F Obs).

(** X2: with [sync_rate] zero the test [global_step % sync_rate] divides by
    zero, so every step raises, whatever the minibatch. *)
Theorem zero_sync_rate_raises self samples indices ws :
  sync_rate self = 0 -> training_step self (samples, indices, ws) = None.
Proof.
  intros Hz.
  destruct (training_step self (samples, indices, ws)) as [[self' out]|]
    eqn:E; [|reflexivity].
  destruct (training_step_inversion _ _ _ _ E) as (_ & _ & _ & _ & _ & Hs & _).
  contradiction.
Qed.

(** X3: a step changes neither the online network nor [gamma],
    [sync_rate], the global step count or the trainer's two flags; the
    environment and agent are advanced by exactly one [step()], taken with
    the online network after the agent's epsilon was set from the global
    step count. *)
Theorem step_keeps_trainer_fields self samples indices ws l ps b :
  loss self samples ws = Some (l, ps) ->
  update_priorities (append (buffer self) (step_exp self)) indices ps
  = Some b ->
  sync_rate self <> 0 ->
  exists self' out,
    training_step self (samples, indices, ws) = Some (self', out) /\
    net self' = net self /\ gamma self' = gamma self /\
    sync_rate self' = sync_rate self /\
    global_step self' = global_step self /\
    use_dp self' = use_dp self /\ use_ddp2 self' = use_ddp2 self /\
    world self'
    = fst (source_step (net self)
             (update_epsilon (global_step self) (world self))).
Proof.
  intros Hl Hu Hs. run_step Hl Hu Hs.
  unfold step_state, env_transition.
  destruct (step_done self), (global_step self mod sync_rate self =? 0);
    simpl; repeat split; reflexivity.
Qed.

(** X4: the loss a step returns is the scalar that [loss] computed from the
    networks as they were before the step (the target network before any
    synchronization), with a leading dimension added exactly when the
    trainer uses [dp] or [ddp2]; the log carries the same tensor as
    [train_loss]. *)
Theorem loss_reshaped_for_data_parallel self samples indices ws l ps b :
  loss self samples ws = Some (l, ps) ->
  update_priorities (append (buffer self) (step_exp self)) indices ps
  = Some b ->
  sync_rate self <> 0 ->
  exists self' out,
    training_step self (samples, indices, ws) = Some (self', out) /\
    out_loss out
    = (if use_dp self || use_ddp2 self then Unsqueezed l else Scalar0 l) /\
    log_train_loss out = out_loss out.
Proof.
  intros Hl Hu Hs. run_step_out Hl Hu Hs.
  simpl. split; reflexivity.
Qed.

(** X5: the log and the progress bar report the state after the step.  On
    a step that ends an episode the progress bar's [episode_steps] is
    therefore 0, the counter having been reset, while the log's
    [episode_steps] is the length of the episode just completed; on any
    other step the progress bar shows the running count and the log the
    length of the previous episode. *)
Theorem progress_bar_shows_reset_step_count self samples indices ws l ps b :
  loss self samples ws = Some (l, ps) ->
  update_priorities (append (buffer self) (step_exp self)) indices ps
  = Some b ->
  sync_rate self <> 0 ->
  exists self' out,
    training_step self (samples, indices, ws) = Some (self', out) /\
    log_total_reward out = total_reward self' /\
    bar_total_reward out = total_reward self' /\
    log_avg_reward out = avg_reward self' /\
    bar_avg_reward out = avg_reward self' /\
    bar_episodes out = episode_count self' /\
    bar_steps out = global_step self /\
    (step_done self = true ->
     bar_episode_steps out = 0 /\
     log_episode_steps out = episode_steps self + 1) /\
    (step_done self = false ->
     bar_episode_steps out = episode_steps self + 1 /\
     log_episode_steps out = total_episode_steps self).
Proof.
  intros Hl Hu Hs. run_step_out Hl Hu Hs.
  simpl. unfold step_state.
  destruct (step_done self), (global_step self mod sync_rate self =? 0);
    simpl; repeat split; intros; (reflexivity || discriminate).
Qed.

(** X6: a step keeps the reward history as long as the episode count:
    if the history has [episode_count] entries before the step, it has
    [episode_count] entries after it, whether or not the step ends an
    episode. *)
Theorem history_length_tracks_episode_count self samples indices ws l ps b :
  loss self samples ws = Some (l, ps) ->
  update_priorities (append (buffer self) (step_exp self)) indices ps
  = Some b ->
  sync_rate self <> 0 ->
  Z.of_nat (length (reward_list self)) = episode_count self ->
  exists self' out,
    training_step self (samples, indices, ws) = Some (self', out) /\
    Z.of_nat (length (reward_list self')) = episode_count self'.
Proof.
  intros Hl Hu Hs Hinv. run_step Hl Hu Hs.
  unfold step_state.
  destruct (step_done self), (global_step self mod sync_rate self =? 0);
    simpl; rewrite ?length_app; simpl; lia.
Qed.


End StepExtras.


(** ** What makes the loss raise, and what it accepts silently *)

Section LossEdges.
Context {F Params Obs World Buffer : Type}.
Context `{Scalar F} `{Network Params Obs F}.
Implicit Types (self : @PERDQN F Params World Buffer).
Implicit Types (batch : @Batch F Obs).

Lemma gather_length rows index (q : list F) :
  gather rows index = Some q -> length q = length index.
Proof.
  revert rows q.
  induction index as [|a index IH]; intros [|r rows] q G; simpl in *;
    try discriminate; try (injection G as <-; reflexivity).
  destruct (a <? 0); [discriminate|].
  destruct (nth_error r (Z.to_nat a)); [|discriminate]. simpl in G.
  destruct (gather rows index) as [vs|] eqn:G'; [|discriminate].
  injection G as <-. simpl. f_equal. now apply (IH rows).
Qed.

Lemma max_dim1_length (rows : list (list F)) m :
  max_dim1 rows = Some m -> length m = length rows.
Proof.
  revert m. induction rows as [|r rows IH]; intros m M; simpl in *.
  - injection M as <-. reflexivity.
  - destruct (row_max r); [|discriminate]. simpl in M.
    destruct (max_dim1 rows) as [ms|]; [|discriminate].
    injection M as <-. simpl. f_equal. now apply IH.
Qed.

Lemma well_shaped_of_size n batch ws :
  batch_of_size n batch -> length ws = n -> well_shaped n batch ws.
Proof. intros (? & ? & ? & ? & ?) ?. repeat split; assumption. Qed.

Lemma map2_repeat_l {A B C : Type} (f : A -> B -> C) x (l : list B) :
  map2 f (repeat x (length l)) l = map (f x) l.
Proof. induction l as [|y l IH]; simpl; [reflexivity|]. now rewrite IH. Qed.

(** X8: an action that is negative, or not smaller than the number of
    action values the online network gives its state, makes [loss] raise
    (the [gather] is out of range). *)
Theorem action_out_of_range_raises self batch ws i s a :
  nth_error (states batch) i = Some s ->
  nth_error (actions batch) i = Some a ->
  a < 0 \/ Z.of_nat (length (forward (net self) s)) <= a ->
  loss self batch ws = None.
Proof.
  intros Es Ea Hr. unfold loss.
  destruct (state_action_vals self batch) as [q|] eqn:Eq; [|reflexivity].
  exfalso. unfold state_action_vals in Eq.
  destruct (@gather_nth_error _ _ (actions batch) q i a
              (forward (net self) s) Eq Ea) as [Ha Eqi].
  { rewrite nth_error_map, Es. reflexivity. }
  assert (Hq : nth_error q i <> None).
  { apply nth_error_Some. rewrite (gather_length _ _ Eq).
    apply nth_error_Some. congruence. }
  rewrite Eqi in Hq. apply nth_error_Some in Hq. lia.
Qed.

(** X9: a [dones] tensor whose length is not the number of next states
    makes [loss] raise (the mask does not fit the tensor it indexes). *)
Theorem mask_length_mismatch_raises self batch ws :
  length (dones batch) <> length (next_states batch) ->
  loss self batch ws = None.
Proof.
  intros Hd. unfold loss.
  destruct (state_action_vals self batch); [simpl|reflexivity].
  unfold exp_sa_vals, next_s_vals.
  destruct (max_dim1 (map (forward (target_net self)) (next_states batch)))
    as [m|] eqn:Em; [|reflexivity].
  apply max_dim1_length in Em. rewrite length_map in Em.
  simpl. unfold masked_fill_zero.
  destruct (Nat.eqb_spec (length (dones batch)) (length m)) as [E|_];
    [congruence|reflexivity].
Qed.

(** X10: a next state to which the target network gives no action value
    makes [loss] raise (there is no maximum to take). *)
Theorem state_without_action_values_raises self batch ws i s :
  nth_error (next_states batch) i = Some s ->
  forward (target_net self) s = [] ->
  loss self batch ws = None.
Proof.
  intros Es Hr. unfold loss.
  destruct (state_action_vals self batch); [simpl|reflexivity].
  unfold exp_sa_vals, next_s_vals.
  destruct (max_dim1 (map (forward (target_net self)) (next_states batch)))
    as [m|] eqn:Em; [|reflexivity].
  exfalso.
  destruct (@max_dim1_nth_error _ _ _ m i (forward (target_net self) s) Em)
    as (v & Ev & _).
  { rewrite nth_error_map, Es. reflexivity. }
  rewrite Hr in Ev. discriminate.
Qed.

(** X11: for a minibatch of [n] samples, [n] other than 1, a weight tensor
    whose length is neither [n] nor 1 makes [loss] raise. *)
Theorem weights_length_mismatch_raises n self batch ws :
  batch_of_size n batch -> actions_in_range self batch ->
  target_rows_nonempty self batch ->
  n <> 1%nat -> length ws <> n -> length ws <> 1%nat ->
  loss self batch ws = None.
Proof.
  intros B Ra Rt Hn Hw H1.
  pose proof (well_shaped_of_size (repeat f_zero n) B
                (repeat_length f_zero n)) as W.
  destruct (loss_defined W Ra Rt) as (q & t & Eq & Lq & Et & Lt & _).
  unfold loss. rewrite Eq, Et. simpl.
  rewrite (broadcast2_same_length f_sub q t) by congruence. simpl.
  assert (L : length (map (fun d => f_mul d d) (map2 f_sub q t)) = n)
    by (rewrite length_map, map2_length; congruence).
  revert L. generalize (map (fun d => f_mul d d) (map2 f_sub q t)).
  intros sq L. unfold broadcast2.
  destruct ws as [|w [|w' ws]]; simpl in *; try congruence;
    destruct sq as [|y [|y' sq]]; simpl in *; try congruence.
  - destruct (Nat.eqb_spec (length ws) (length sq)); [lia|reflexivity].
Qed.

(** X12: a weight tensor of length 1 is accepted for a minibatch of any
    size: its one weight is applied to every sample, and [loss] returns
    what it returns for [n] copies of that weight. *)
Theorem single_weight_broadcasts n self batch w :
  batch_of_size n batch -> actions_in_range self batch ->
  target_rows_nonempty self batch ->
  loss self batch [w] = loss self batch (repeat w n) /\
  loss self batch [w] <> None.
Proof.
  intros B Ra Rt.
  pose proof (well_shaped_of_size (repeat w n) B (repeat_length w n))
    as W.
  destruct (loss_defined W Ra Rt) as (q & t & Eq & Lq & Et & Lt & El).
  assert (E : loss self batch [w] = loss self batch (repeat w n)).
  { unfold loss. rewrite Eq, Et. simpl.
    rewrite (broadcast2_same_length f_sub q t) by congruence. simpl.
    assert (L : length (map (fun d => f_mul d d) (map2 f_sub q t)) = n)
      by (rewrite length_map, map2_length; congruence).
    revert L. generalize (map (fun d => f_mul d d) (map2 f_sub q t)).
    intros sq L. rewrite <- L.
    rewrite (broadcast2_same_length f_mul (repeat w (length sq)) sq)
      by apply repeat_length.
    rewrite map2_repeat_l. reflexivity. }
  split; [exact E|]. rewrite E, El. discriminate.
Qed.
End LossEdges.


(** ** The loss and the average in exact arithmetic *)

Section ExactExtras.
Context {Params Obs Exp World Buffer : Type}.
Context `{Network Params Obs Q} `{Source World Params Exp Q}
        `{ReplayBuffer Buffer Exp Q}.
Implicit Types (self : @PERDQN Q Params World Buffer).
Implicit Types (samples : @Batch Q Obs).

Lemma fold_Qplus_acc (l : list Q) (a : Q) :
  (fold_left Qplus l a == a + fold_left Qplus l 0)%Q.
Proof.
  revert a. induction l as [|x l IH]; intros a; simpl; [ring|].
  rewrite (IH (a + x)%Q), (IH (0 + x)%Q). ring.
Qed.

Lemma sum_cons (x : Q) (l : list Q) : (sum (x :: l) == x + sum l)%Q.
Proof. unfold sum. simpl. rewrite fold_Qplus_acc. ring. Qed.

Lemma sum_nonneg (l : list Q) :
  Forall (fun x => 0 <= x)%Q l -> (0 <= sum l)%Q.
Proof.
  induction 1 as [|x l Hx _ IH]; [apply Qle_refl|].
  rewrite sum_cons. lra.
Qed.

Lemma sum_map_add (e : Q) (l : list Q) :
  (sum (map (fun x => x + e) l)
   == sum l + inject_Z (Z.of_nat (length l)) * e)%Q.
Proof.
  induction l as [|x l IH].
  - simpl. unfold sum. simpl. ring.
  - simpl map. rewrite !sum_cons, IH.
    change (length (x :: l)) with (S (length l)).
    rewrite Nat2Z.inj_succ. unfold Z.succ. rewrite inject_Z_plus. ring.
Qed.

Lemma sum_constant (c : Q) (l : list Q) :
  Forall (fun x => x == c)%Q l ->
  (sum l == inject_Z (Z.of_nat (length l)) * c)%Q.
Proof.
  induction 1 as [|x l Hx _ IH].
  - unfold sum. simpl. ring.
  - cbv beta in Hx.
    change (length (x :: l)) with (S (length l)).
    rewrite sum_cons, IH, Hx.
    rewrite Nat2Z.inj_succ. unfold Z.succ. rewrite inject_Z_plus. ring.
Qed.

Lemma Forall_skipn {A : Type} (P : A -> Prop) k (l : list A) :
  Forall P l -> Forall P (skipn k l).
Proof.
  intros Hl. revert k. induction Hl; intros [|k]; simpl; auto.
Qed.

Lemma nth_table {A : Type} (g : nat -> A) n i d :
  (i < n)%nat -> nth i (map g (seq 0 n)) d = g i.
Proof.
  intros Hi. rewrite (nth_indep _ d (g O)) by now rewrite length_map, length_seq.
  rewrite (map_nth g (seq 0 n) O i), seq_nth by assumption. reflexivity.
Qed.

(** X13: in exact arithmetic, for a minibatch that is not empty and
    weights that are not negative, the training loss is not negative. *)
Theorem loss_nonnegative n self samples ws :
  well_shaped n samples ws -> actions_in_range self samples ->
  target_rows_nonempty self samples ->
  (0 < n)%nat ->
  Forall (fun w => 0 <= w)%Q ws ->
  exists l ps, loss self samples ws = Some (l, ps) /\ (0 <= l)%Q.
Proof.
  intros W Ra Rt Hn Hw.
  destruct (loss_defined W Ra Rt) as (q & t & _ & _ & _ & _ & El).
  eexists. eexists. split; [exact El|].
  unfold spec_loss. simpl. apply Qle_shift_div_l.
  - change 0%Q with (inject_Z 0). rewrite <- Zlt_Qlt. lia.
  - rewrite Qmult_0_l.
    apply sum_nonneg, Forall_map, Forall_forall. intros i _.
    now apply weighted_sq_err_nonneg.
Qed.

(** X14: for a minibatch that is not empty, the mean of the priorities
    that [loss] returns is the training loss plus 1e-5. *)
Theorem mean_priority_is_loss_plus_eps n self samples ws :
  well_shaped n samples ws -> actions_in_range self samples ->
  target_rows_nonempty self samples ->
  (0 < n)%nat ->
  exists l ps,
    loss self samples ws = Some (l, ps) /\ length ps = n /\
    (mean ps == l + f_eps)%Q.
Proof.
  intros W Ra Rt Hn.
  destruct (loss_defined W Ra Rt) as (q & t & _ & _ & _ & _ & El).
  eexists. eexists. split; [exact El|].
  assert (L : length (spec_priorities n ws q t) = n)
    by (unfold spec_priorities; now rewrite length_map, length_seq).
  split; [exact L|].
  unfold mean. rewrite L. unfold spec_priorities, spec_loss.
  rewrite <- (map_map (weighted_sq_err ws q t) (fun x => f_add x f_eps)).
  pose proof (sum_map_add f_eps (map (weighted_sq_err ws q t) (seq 0 n)))
    as S.
  rewrite length_map, length_seq in S.
  set (xs := map (weighted_sq_err ws q t) (seq 0 n)) in *.
  change ((sum (map (fun x => (x + f_eps)%Q) xs) / inject_Z (Z.of_nat n)
           == sum xs / inject_Z (Z.of_nat n) + f_eps)%Q).
  rewrite S.
  assert (Hz : ~ (inject_Z (Z.of_nat n) == 0)%Q).
  { change 0%Q with (inject_Z 0). rewrite inject_Z_injective. lia. }
  field. exact Hz.
Qed.

(** X15: the priority of a sample is at its floor of 1e-5 exactly when the
    sample's weight is zero or its prediction equals its target. *)
Theorem priority_at_floor_iff n self samples ws :
  well_shaped n samples ws -> actions_in_range self samples ->
  target_rows_nonempty self samples ->
  exists q_pred q_target l ps,
    state_action_vals self samples = Some q_pred /\
    exp_sa_vals self samples = Some q_target /\
    loss self samples ws = Some (l, ps) /\
    forall i, (i < n)%nat ->
      (nth i ps 0 == f_eps <->
       nth i ws 0 == 0 \/ nth i q_pred 0 == nth i q_target 0)%Q.
Proof.
  intros W Ra Rt.
  destruct (loss_defined W Ra Rt) as (q & t & Eq & _ & Et & _ & El).
  exists q, t. eexists. eexists. repeat split; try eassumption.
  - unfold spec_priorities. rewrite nth_table by assumption.
    unfold weighted_sq_err. simpl. intros E.
    assert (E0 : (nth i ws 0
                  * ((nth i q 0 - nth i t 0) * (nth i q 0 - nth i t 0))
                  == 0)%Q) by lra.
    apply Qmult_integral in E0. destruct E0 as [E0|E0]; [now left|right].
    apply Qmult_integral in E0. destruct E0 as [E0|E0]; lra.
  - unfold spec_priorities. rewrite nth_table by assumption.
    unfold weighted_sq_err. simpl. intros [E|E].
    + rewrite E. ring.
    + rewrite E. ring.
Qed.


(** X17: when every reward of the history and the reward of the episode
    just completed equal [c], the trailing average is [c * min(100, k) /
    100] for a history of [k] rewards: [c] itself from the hundredth
    episode on, and a fraction [k / 100] of it before. *)
Theorem trailing_average_of_constant_history self samples indices ws l ps b
    (c : Q) :
  loss self samples ws = Some (l, ps) ->
  update_priorities (append (buffer self) (step_exp self)) indices ps
  = Some b ->
  sync_rate self <> 0 ->
  step_done self = true ->
  Forall (fun x => x == c)%Q (reward_list self) ->
  (episode_reward self + step_reward self == c)%Q ->
  exists self' out,
    training_step self (samples, indices, ws) = Some (self', out) /\
    (avg_reward self'
     == c * inject_Z (Z.of_nat (Nat.min 100 (length (reward_list self'))))
        / 100)%Q.
Proof.
  intros Hl Hu Hs Hd Hc Hx. run_step Hl Hu Hs.
  assert (E : avg_reward (step_state self b)
              = (sum (last_n 100 (reward_list (step_state self b)))
                 / inject_Z 100)%Q
              /\ reward_list (step_state self b)
                 = reward_list self
                   ++ [(episode_reward self + step_reward self)%Q]).
  { unfold step_state. rewrite Hd.
    destruct (global_step self mod sync_rate self =? 0); split; reflexivity. }
  destruct E as [Ea Er]. rewrite Ea, Er.
  set (hist := reward_list self
               ++ [(episode_reward self + step_reward self)%Q]).
  assert (Hh : Forall (fun x => x == c)%Q hist).
  { apply Forall_app. split; [exact Hc|]. constructor; [exact Hx|constructor]. }
  rewrite (sum_constant (c := c) (l := last_n 100 hist))
    by (apply Forall_skipn; exact Hh).
  unfold last_n at 1. rewrite length_skipn.
  replace (length hist - (length hist - 100))%nat
    with (Nat.min 100 (length hist)) by lia.
  change (inject_Z 100) with 100%Q. field.
Qed.
End ExactExtras.


(** ** The loss in binary64 *)

Section IEEEExtras.
Context {Params Obs World Buffer : Type}.
Context `{Network Params Obs spec_float}.
Implicit Types (self : @PERDQN spec_float Params World Buffer).
Implicit Types (samples : @Batch spec_float Obs).

(** X18: on an empty minibatch [loss] does not raise: it returns no
    priorities and, the mean of no values being 0/0, a loss that is not a
    number. *)
Theorem empty_batch_loss_is_nan self samples :
  batch_of_size 0 samples ->
  loss self samples [] = Some (S754_nan, []).
Proof.
  intros (Ls & La & Lr & Ld & Ln).
  destruct samples as [ss acts rs ds ns]. simpl in *.
  apply length_zero_iff_nil in Ls, La, Lr, Ld, Ln. subst.
  reflexivity.
Qed.

(** X19: in binary64, with a [gamma] that is finite, the target of every
    row whose [done] flag is set is its reward, but that a reward which is
    a zero may come out as the zero of the other sign. *)
Theorem b64_terminal_rows_target_is_reward n self samples ws :
  well_shaped n samples ws -> target_rows_nonempty self samples ->
  B64.is_finite (gamma self) = true ->
  exists q_target,
    exp_sa_vals self samples = Some q_target /\
    forall i r,
      nth_error (dones samples) i = Some true ->
      nth_error (rewards samples) i = Some r ->
      exists ti,
        nth_error q_target i = Some ti /\
        (ti = r \/ exists s s', r = S754_zero s /\ ti = S754_zero s').
Proof.
  intros W R Hg.
  destruct (terminal_row W R) as (nv & t & _ & Et & Hrow).
  exists t. split; [exact Et|]. intros i r Ed Er.
  destruct (Hrow i r Ed Er) as [_ Ei].
  eexists. split; [exact Ei|].
  apply b64_terminal_target. exact Hg.
Qed.
End IEEEExtras.


(** ** Further concrete runs *)

Section FurtherRuns.
Local Abbreviation done_run := (Run.start (F:=Q) 1 0 5%Q 1).
Local Abbreviation going_run := (Run.start (F:=Q) 1 3 5%Q 10).
Local Abbreviation samples := (Run.samples (F:=Q)).
Local Abbreviation weights := (Run.weights (F:=Q)).
Local Abbreviation indices := Run.indices.

Ltac shape_hyps :=
  first
    [ now (repeat split)
    | now (repeat (apply Forall2_cons; [simpl; lia|]); apply Forall2_nil)
    | now (repeat (apply Forall_cons; [discriminate|]); apply Forall_nil)
    | now (repeat (apply Forall_cons; [unfold Qle; simpl; lia|]);
           apply Forall_nil) ].

Ltac step_hyps := first [ reflexivity | discriminate | simpl; lia ].

Lemma zero_sync_rate_raises_witness :
  training_step (Edge.no_sync (F:=Q)) (samples, indices, weights) = None.
Proof. apply zero_sync_rate_raises. reflexivity. Defined.

Lemma step_keeps_trainer_fields_witness :
  exists self' out,
    training_step going_run (samples, indices, weights) = Some (self', out) /\
    net self' = net going_run /\ gamma self' = gamma going_run /\
    sync_rate self' = sync_rate going_run /\
    global_step self' = global_step going_run /\
    use_dp self' = use_dp going_run /\ use_ddp2 self' = use_ddp2 going_run /\
    world self'
    = fst (source_step (net going_run)
             (update_epsilon (global_step going_run) (world going_run))).
Proof. eapply step_keeps_trainer_fields; step_hyps. Defined.

Lemma loss_reshaped_for_data_parallel_witness :
  exists self' out,
    training_step done_run (samples, indices, weights) = Some (self', out) /\
    out_loss out
    = (if use_dp done_run || use_ddp2 done_run
       then Unsqueezed (73 # 2)%Q else Scalar0 (73 # 2)%Q) /\
    log_train_loss out = out_loss out.
Proof. eapply loss_reshaped_for_data_parallel; step_hyps. Defined.

Lemma progress_bar_shows_reset_step_count_witness :
  exists self' out,
    training_step done_run (samples, indices, weights) = Some (self', out) /\
    log_total_reward out = total_reward self' /\
    bar_total_reward out = total_reward self' /\
    log_avg_reward out = avg_reward self' /\
    bar_avg_reward out = avg_reward self' /\
    bar_episodes out = episode_count self' /\
    bar_steps out = global_step done_run /\
    (step_done done_run = true ->
     bar_episode_steps out = 0 /\
     log_episode_steps out = episode_steps done_run + 1) /\
    (step_done done_run = false ->
     bar_episode_steps out = episode_steps done_run + 1 /\
     log_episode_steps out = total_episode_steps done_run).
Proof. eapply progress_bar_shows_reset_step_count; step_hyps. Defined.

Lemma history_length_tracks_episode_count_witness :
  exists self' out,
    training_step done_run (samples, indices, weights) = Some (self', out) /\
    Z.of_nat (length (reward_list self')) = episode_count self'.
Proof. eapply history_length_tracks_episode_count; step_hyps. Defined.


Lemma action_out_of_range_raises_witness :
  loss done_run (Edge.bad_action (F:=Q)) weights = None.
Proof.
  eapply (action_out_of_range_raises done_run (Edge.bad_action (F:=Q))
            weights 1 (s := 2) (a := 2));
    [reflexivity | reflexivity | right; simpl; lia].
Defined.

Lemma mask_length_mismatch_raises_witness :
  loss done_run (Edge.short_mask (F:=Q)) weights = None.
Proof. apply mask_length_mismatch_raises. simpl. lia. Defined.

Lemma state_without_action_values_raises_witness :
  @loss Q Z Z (@Toy.world Q) (@PriorityStore.t Q Z) Q_scalar Edge.silent
    done_run samples weights = None.
Proof.
  eapply (@state_without_action_values_raises Q Z Z (@Toy.world Q)
            (@PriorityStore.t Q Z) Q_scalar Edge.silent done_run samples
            weights 0%nat 2);
    reflexivity.
Defined.

Lemma weights_length_mismatch_raises_witness :
  loss done_run samples [1%Q; 2%Q; 3%Q] = None.
Proof.
  apply (weights_length_mismatch_raises (n := 2));
    first [ shape_hyps | simpl; lia ].
Defined.

Lemma single_weight_broadcasts_witness :
  loss done_run samples [3%Q] = loss done_run samples (repeat 3%Q 2) /\
  loss done_run samples [3%Q] <> None.
Proof. apply (single_weight_broadcasts (n := 2)); shape_hyps. Defined.

Lemma loss_nonnegative_witness :
  exists l ps, loss done_run samples weights = Some (l, ps) /\ (0 <= l)%Q.
Proof. apply (loss_nonnegative (n := 2)); first [ shape_hyps | lia ]. Defined.

Lemma mean_priority_is_loss_plus_eps_witness :
  exists l ps,
    loss done_run samples weights = Some (l, ps) /\ length ps = 2%nat /\
    (mean ps == l + f_eps)%Q.
Proof.
  apply (mean_priority_is_loss_plus_eps (n := 2));
    first [ shape_hyps | lia ].
Defined.

Lemma priority_at_floor_iff_witness :
  exists q_pred q_target l ps,
    state_action_vals done_run samples = Some q_pred /\
    exp_sa_vals done_run samples = Some q_target /\
    loss done_run samples weights = Some (l, ps) /\
    forall i, (i < 2)%nat ->
      (nth i ps 0 == f_eps <->
       nth i weights 0 == 0 \/ nth i q_pred 0 == nth i q_target 0)%Q.
Proof. apply (priority_at_floor_iff (n := 2)); shape_hyps. Defined.


Lemma trailing_average_of_constant_history_witness :
  exists self' out,
    training_step done_run (samples, indices, weights) = Some (self', out) /\
    (avg_reward self'
     == 5 * inject_Z (Z.of_nat (Nat.min 100 (length (reward_list self'))))
        / 100)%Q.
Proof.
  eapply trailing_average_of_constant_history;
    first [ step_hyps | apply Forall_nil ].
Defined.

Lemma empty_batch_loss_is_nan_witness :
  loss (Run.start (F:=spec_float) 1 0 (B64.of_Z 5) 1) Edge.empty []
  = Some (S754_nan, []).
Proof. apply empty_batch_loss_is_nan. now repeat split. Defined.

Lemma b64_terminal_rows_target_is_reward_witness :
  exists q_target,
    exp_sa_vals (Run.start (F:=spec_float) 1 0 (B64.of_Z 5) 1) Run.samples
    = Some q_target /\
    forall i r,
      nth_error (dones (Run.samples (F:=spec_float))) i = Some true ->
      nth_error (rewards (Run.samples (F:=spec_float))) i = Some r ->
      exists ti,
        nth_error q_target i = Some ti /\
        (ti = r \/ exists s s', r = S754_zero s /\ ti = S754_zero s').
Proof.
  apply (b64_terminal_rows_target_is_reward (n := 2)
           (ws := Run.weights (F:=spec_float)));
    first [ reflexivity
          | now (repeat split)
          | now (repeat (apply Forall_cons; [discriminate|]);
                 apply Forall_nil) ].
Defined.
End FurtherRuns.
